(** * TS-Template: the GitHub identity-link strategy and the token helper

    A shallow embedding of
      - [src/config/strategies/github.strategy.template.ts] (the guarded
        construction of [githubStrategy] and its verify callback), and
      - [src/helpers/jwtHelper.ts] ([createToken] and [verifyToken]),
    followed by the properties of the written specification.

    JavaScript values that the code only tests for truthiness and combines
    with [||] are embedded as [option string]: [None] is [undefined]/[null],
    [Some s] is the string [s]. *)

From Stdlib Require Import ZArith Ascii String List Bool Lia.
From stdpp Require Import base option strings list gmap fin_maps.

Set Default Proof Using "Type".
Local Set Warnings "-register-all".
Local Open Scope string_scope.
Local Open Scope list_scope.

(** ** JavaScript truthiness on optional strings *)

Module JS.

(** [!!v]: a string is truthy unless it is empty; [undefined] is falsy. *)
Definition truthy (v : option string) : bool :=
  match v with
  | Some s => negb (String.eqb s "")
  | None => false
  end.

Definition falsy (v : option string) : bool := negb (truthy v).

(** [a || b] *)
Definition or (a b : option string) : option string :=
  if truthy a then a else b.

(** [a || 'literal'], whose result is always a string. *)
Definition or_lit (a : option string) (d : string) : string :=
  match a with
  | Some s => if String.eqb s "" then d else s
  | None => d
  end.

(** [s.split(sep)] for a one-character separator, given as a test on
    characters: the pieces between separators; the result is never empty,
    and the pieces may be. *)
Fixpoint split_by (is_sep : ascii -> bool) (s : string) : list string :=
  match s with
  | EmptyString => [ EmptyString ]
  | String c rest =>
      if is_sep c then EmptyString :: split_by is_sep rest
      else match split_by is_sep rest with
           | [] => [ String c EmptyString ]
           | piece :: pieces => String c piece :: pieces
           end
  end.

Definition is_space (c : ascii) : bool := Ascii.eqb c " "%char.

(** [s.split(' ')] *)
Definition split_space (s : string) : list string := split_by is_space s.

(** [xs.join(' ')] *)
Fixpoint join_space (xs : list string) : string :=
  match xs with
  | [] => EmptyString
  | [ x ] => x
  | x :: rest => x +:+ " " +:+ join_space rest
  end.

(** [xs[0]] and [xs.slice(1)] *)
Definition first {A} (xs : list A) : option A := head xs.
Definition slice1 {A} (xs : list A) : list A := tail xs.

End JS.

(** ** The passport profile *)

(** An entry of [profile.emails] or [profile.photos]: [{ value }]. *)
Record Entry := { value : option string }.

(** The handshake result.  [id], [displayName], [emails] and [photos] are the
    destructured fields; the others are the ones read through
    [(profile as any)]. *)
Record Profile := {
  id : string;
  displayName : option string;
  emails : option (list Entry);
  photos : option (list Entry);
  flat_email : option string;
  login : option string;
  avatarUrl : option string;
  profile_location : option string
}.

(** [xs?.[0]?.value] *)
Definition first_value (xs : option (list Entry)) : option string :=
  match xs with
  | Some l => match JS.first l with Some e => value e | None => None end
  | None => None
  end.

(** Line 43: [emails?.[0]?.value || (profile as any).email] *)
Definition resolve_email (p : Profile) : option string :=
  JS.or (first_value (emails p)) (flat_email p).

(** Lines 59, 75, 77: [photos?.[0]?.value || (profile as any).avatarUrl] *)
Definition resolve_avatar (p : Profile) : option string :=
  JS.or (first_value (photos p)) (avatarUrl p).

(** Line 56: [displayName || (profile as any).login || 'User'] *)
Definition derive_name (p : Profile) : string :=
  JS.or_lit (JS.or (displayName p) (login p)) "User".

(** Line 57: [displayName?.split(' ')[0] || 'User'] *)
Definition derive_firstName (p : Profile) : string :=
  JS.or_lit
    (match displayName p with
     | Some d => JS.first (JS.split_space d)
     | None => None
     end) "User".

(** Line 58: [displayName?.split(' ').slice(1).join(' ') || ''] *)
Definition derive_lastName (p : Profile) : string :=
  JS.or_lit
    (match displayName p with
     | Some d => Some (JS.join_space (JS.slice1 (JS.split_space d)))
     | None => None
     end) "".

(** ** The user record and the persistence layer *)

(** Modelled from the spec: the UserRecord of [app/modules/user/user.model],
    whose schema is not part of the sources; section 3 lists its fields.
    Fields that the handler tests for presence are optional. *)
Record UserRecord := {
  email : string;
  name : string;
  firstName : string;
  lastName : string;
  avatar : option string;
  provider : option string;
  providerId : option string;
  verified : bool;
  status : string;
  contact : string;
  location : string;
  password : option string
}.

(** In-place assignments to a found document (lines 71, 72 and 77). *)
Definition set_provider (v : option string) (u : UserRecord) : UserRecord :=
  {| email := email u; name := name u; firstName := firstName u;
     lastName := lastName u; avatar := avatar u; provider := v;
     providerId := providerId u; verified := verified u; status := status u;
     contact := contact u; location := location u; password := password u |}.

Definition set_providerId (v : option string) (u : UserRecord) : UserRecord :=
  {| email := email u; name := name u; firstName := firstName u;
     lastName := lastName u; avatar := avatar u; provider := provider u;
     providerId := v; verified := verified u; status := status u;
     contact := contact u; location := location u; password := password u |}.

Definition set_avatar (v : option string) (u : UserRecord) : UserRecord :=
  {| email := email u; name := name u; firstName := firstName u;
     lastName := lastName u; avatar := v; provider := provider u;
     providerId := providerId u; verified := verified u; status := status u;
     contact := contact u; location := location u; password := password u |}.

(** Values that JavaScript code throws. *)
Inductive exn :=
| Error (message : string)
| JsonWebTokenError (message : string)
| NotBeforeError (message : string) (date : Z)
| TokenExpiredError (message : string) (expiredAt : Z).

(** A call either returns or throws (an awaited promise resolves or
    rejects). *)
Inductive outcome (A : Type) :=
| Returned (a : A)
| Thrown (e : exn).
Arguments Returned {A} a.
Arguments Thrown {A} e.

(** What a handshake does to the outside: the calls on the user model and
    the calls of the continuation [done], in order.  [CallDone (Some e) None]
    is [done(e)], [CallDone None (Some u)] is [done(null, u)]. *)
Inductive event :=
| CallFindOne (filter_email : string)
| CallCreate (fields : UserRecord)
| CallSave (doc : UserRecord)
| CallDone (err : option exn) (user : option UserRecord).

(** The persistence service behind [User]: any state [DB], and three
    operations that may change it and may throw. *)
Class UserModel (DB : Type) := {
  User_findOne : string -> DB -> outcome (option UserRecord) * DB;
  User_create : UserRecord -> DB -> outcome UserRecord * DB;
  User_save : UserRecord -> DB -> outcome unit * DB
}.

(** ** The monad of the handler: persistence state, exceptions, event log *)

Definition Run (DB A : Type) : Type := DB -> outcome A * DB * list event.

Definition run_ret {DB A} (a : A) : Run DB A :=
  fun db => (Returned a, db, []).

Definition run_bind {DB A B} (m : Run DB A) (k : A -> Run DB B) : Run DB B :=
  fun db =>
    match m db with
    | (Returned a, db1, log1) =>
        match k a db1 with
        | (r, db2, log2) => (r, db2, log1 ++ log2)
        end
    | (Thrown e, db1, log1) => (Thrown e, db1, log1)
    end.

(** [try { body } catch (error) { handler(error) }] *)
Definition try_catch {DB A} (body : Run DB A) (handler : exn -> Run DB A)
  : Run DB A :=
  fun db =>
    match body db with
    | (Returned a, db1, log1) => (Returned a, db1, log1)
    | (Thrown e, db1, log1) =>
        match handler e db1 with
        | (r, db2, log2) => (r, db2, log1 ++ log2)
        end
    end.

(** A call on the persistence service, recorded before it runs. *)
Definition call {DB A} (ev : event) (op : DB -> outcome A * DB) : Run DB A :=
  fun db => match op db with (r, db1) => (r, db1, [ ev ]) end.

#[export] Instance run_mret {DB} : MRet (Run DB) := @run_ret DB.
#[export] Instance run_mbind {DB} : MBind (Run DB) :=
  fun A B k m => run_bind m k.

(** The three parts of an outcome of a run. *)
Definition result_of {DB A} (r : outcome A * DB * list event) : outcome A :=
  fst (fst r).
Definition db_of {DB A} (r : outcome A * DB * list event) : DB :=
  snd (fst r).
Definition log_of {DB A} (r : outcome A * DB * list event) : list event :=
  snd r.

(** Projections of a log. *)
Definition is_done (ev : event) : bool :=
  match ev with CallDone _ _ => true | _ => false end.
Definition is_create (ev : event) : bool :=
  match ev with CallCreate _ => true | _ => false end.
Definition is_save (ev : event) : bool :=
  match ev with CallSave _ => true | _ => false end.
Definition is_write (ev : event) : bool := is_create ev || is_save ev.
Definition is_persistence (ev : event) : bool := negb (is_done ev).

Definition count (f : event -> bool) (log : list event) : nat :=
  length (filter (fun ev => f ev = true) log).

Definition done_calls (log : list event)
  : list (option exn * option UserRecord) :=
  omap (fun ev => match ev with CallDone e u => Some (e, u) | _ => None end)
       log.

(** ** The verify callback (lines 39 to 87) *)

Definition github : string := "github".
Definition no_email : exn := Error "No email provided by GitHub".

(** [String(id)] on a string. *)
Definition String_ (s : string) : string := s.

(** Lines 54 to 67: the argument of [User.create]. *)
Definition new_user (email : string) (profile : Profile) : UserRecord :=
  {| email := email;
     name := derive_name profile;
     firstName := derive_firstName profile;
     lastName := derive_lastName profile;
     avatar := resolve_avatar profile;
     provider := Some github;
     providerId := Some (String_ (id profile));
     verified := true;
     status := "active";
     contact := "";
     location := JS.or_lit (profile_location profile) "";
     password := None |}.

(** Lines 71 to 78: the assignments made to a found document that has no
    [providerId]. *)
Definition backfill (profile : Profile) (user : UserRecord) : UserRecord :=
  let user := set_provider (Some github) user in
  let user := set_providerId (Some (String_ (id profile))) user in
  if JS.falsy (avatar user) && JS.truthy (resolve_avatar profile)
  then set_avatar (resolve_avatar profile) user
  else user.

Section Handler.
Context {DB : Type} `{UserModel DB}.

(** [done], the fourth parameter of the callback: the continuation that the
    middleware supplies.  Called with a report it returns, or it throws. *)
Variable done_k : option exn -> option UserRecord -> outcome unit.

(** [done(err, user)]: the call is recorded, and its outcome is the
    continuation's. *)
Definition call_done (err : option exn) (user : option UserRecord)
  : Run DB unit :=
  fun db => (done_k err user, db, [ CallDone err user ]).

(** The body of the [try] block. *)
Definition verify_body_with (profile : Profile) : Run DB unit :=
  let email := resolve_email profile in
  if JS.falsy email then call_done (Some no_email) None
  else
    let email := default "" email in
    found ← call (CallFindOne email) (User_findOne email);
    match found with
    | None =>
        let fields := new_user email profile in
        user ← call (CallCreate fields) (User_create fields);
        call_done None (Some user)
    | Some user =>
        if JS.falsy (providerId user) then
          let user := backfill profile user in
          call (CallSave user) (User_save user);;
          call_done None (Some user)
        else call_done None (Some user)
    end.

(** [async (accessToken, refreshToken, profile, done) => { try ... catch
    (error) { return done(error); } }] *)
Definition verify_callback_with (accessToken refreshToken : string)
    (profile : Profile) : Run DB unit :=
  try_catch (verify_body_with profile)
            (fun error => call_done (Some error) None).

End Handler.

(** A continuation that returns from every report. *)
Definition returning (err : option exn) (user : option UserRecord)
  : outcome unit :=
  Returned tt.

(** The callback under a continuation that returns: the handshake whose
    report the middleware accepts. *)
Definition verify_callback {DB : Type} `{UserModel DB}
    (accessToken refreshToken : string) (profile : Profile) : Run DB unit :=
  verify_callback_with returning accessToken refreshToken profile.

(** The report that the [catch] block makes when the continuation throws on
    a report made inside the [try] block. *)
Definition second_report
    (done_k : option exn -> option UserRecord -> outcome unit)
    (err : option exn) (user : option UserRecord) : list event :=
  match done_k err user with
  | Thrown ex => [ CallDone (Some ex) None ]
  | Returned _ => []
  end.

(** ** The guarded construction of the strategy (lines 25 to 38) *)

(** Modelled from the spec: [config.oauth.github] of [src/config/index.ts],
    which is not part of the sources; the comment at lines 94 to 104 and
    section 6 give its three fields.  A field that is missing from the
    configuration object is [None]. *)
Record GithubConfig := {
  clientID : option string;
  clientSecret : option string;
  callbackURL : option string
}.

(** [config.oauth]; its [github] entry may be missing. *)
Record OAuthConfig := { oauth_github : option GithubConfig }.

(** What [new GitHubStrategy(options, verify)] is given. *)
Record GitHubStrategy (DB : Type) := {
  strategy_clientID : option string;
  strategy_clientSecret : option string;
  strategy_callbackURL : option string;
  strategy_verify : string -> string -> Profile -> Run DB unit
}.
Arguments strategy_clientID {DB} _.
Arguments strategy_clientSecret {DB} _.
Arguments strategy_callbackURL {DB} _.
Arguments strategy_verify {DB} _.

(** The value of the exported [githubStrategy] once the module is loaded:
    [null] unless the condition of lines 28 to 32 holds. *)
Definition githubStrategy {DB} `{UserModel DB} (oauth : OAuthConfig)
  : option (GitHubStrategy DB) :=
  match oauth_github oauth with
  | Some cfg =>
      if JS.truthy (clientID cfg) && JS.truthy (clientSecret cfg) then
        Some {| strategy_clientID := clientID cfg;
                strategy_clientSecret := clientSecret cfg;
                strategy_callbackURL := callbackURL cfg;
                strategy_verify := verify_callback |}
      else None
  | None => None
  end.

(** The three credentials "present and non-empty", as section 4.1 words the
    condition. *)
Definition all_three_credentials (oauth : OAuthConfig) : bool :=
  match oauth_github oauth with
  | Some cfg =>
      JS.truthy (clientID cfg) && JS.truthy (clientSecret cfg)
      && JS.truthy (callbackURL cfg)
  | None => false
  end.

(** ** An in-memory user collection

    A persistence service to run the handler against: documents keyed by
    their unique [email], and a switch that makes every operation throw. *)

Record MemDB := {
  documents : gmap string UserRecord;
  online : bool
}.

Definition connection_lost : exn := Error "connection lost".
Definition duplicate_key : exn := Error "E11000 duplicate key error".

Definition mem_findOne (e : string) (db : MemDB)
  : outcome (option UserRecord) * MemDB :=
  if online db then (Returned (documents db !! e), db)
  else (Thrown connection_lost, db).

Definition mem_create (fields : UserRecord) (db : MemDB)
  : outcome UserRecord * MemDB :=
  if online db then
    match documents db !! email fields with
    | Some _ => (Thrown duplicate_key, db)
    | None =>
        (Returned fields,
         {| documents := <[email fields := fields]> (documents db);
            online := online db |})
    end
  else (Thrown connection_lost, db).

Definition mem_save (doc : UserRecord) (db : MemDB) : outcome unit * MemDB :=
  if online db then
    (Returned tt,
     {| documents := <[email doc := doc]> (documents db);
        online := online db |})
  else (Thrown connection_lost, db).

#[export] Instance MemDB_model : UserModel MemDB := {
  User_findOne := mem_findOne;
  User_create := mem_create;
  User_save := mem_save
}.

(** Sample data. *)
Definition ada : Profile :=
  {| id := "1815"; displayName := Some "Ada Lovelace";
     emails := Some [ {| value := Some "ada@example.org" |} ];
     photos := Some [ {| value := Some "https://img.example.org/ada.png" |} ];
     flat_email := None; login := Some "ada99"; avatarUrl := None;
     profile_location := Some "London" |}.

Definition ada99 : Profile :=
  {| id := "1815"; displayName := None; emails := Some [];
     photos := None; flat_email := Some "ada@example.org";
     login := Some "ada99"; avatarUrl := None; profile_location := None |}.

Definition anonymous : Profile :=
  {| id := "7"; displayName := Some "Nobody"; emails := Some [];
     photos := None; flat_email := None; login := None; avatarUrl := None;
     profile_location := None |}.

Definition local_ada : UserRecord :=
  {| email := "ada@example.org"; name := "Ada"; firstName := "Ada";
     lastName := "L."; avatar := None; provider := None; providerId := None;
     verified := false; status := "active"; contact := "555";
     location := "Ockham"; password := Some "$2b$12$hash" |}.

Definition linked_ada : UserRecord := backfill ada local_ada.

Definition empty_db : MemDB := {| documents := ∅; online := true |}.
Definition db_with (u : UserRecord) : MemDB :=
  {| documents := {[ email u := u ]}; online := true |}.
Definition offline_db : MemDB := {| documents := ∅; online := false |}.

(** ** The token helper (jwtHelper.ts) *)

Module Jwt.

(** JSON values, what a serializable payload is made of.  Numbers are the
    integers, which is what the time claims are. *)
Inductive json :=
| JNull
| JBool (b : bool)
| JNum (n : Z)
| JStr (s : string)
| JArr (items : list json)
| JObj (fields : list (string * json)).

(** Modelled from the spec: the token string that [jwt.sign] of the
    [jsonwebtoken] package returns; the package is not part of the
    sources.  Section 6 leaves the wire format opaque, so a token is the
    claims it encodes together with the secret it was signed with. *)
Record token := {
  claims : gmap string json;
  signed_with : string
}.

Definition number_or_absent (v : option json) : bool :=
  match v with
  | None | Some (JNum _) => true
  | Some _ => false
  end.

(** [payload.iat || now] *)
Definition issued_at (now : Z) (payload : gmap string json) : Z :=
  match payload !! "iat" with
  | Some (JNum n) => if (n =? 0)%Z then now else n
  | _ => now
  end.

Section Codec.
(** Modelled from the spec: the duration grammar of [expireTime]
    (section 4.2: a duration expression such as 1h or 7d), which the
    [ms] package implements; it gives the milliseconds of an expression,
    or nothing for a string outside the grammar. *)
Variable ms : string -> option Z.

Definition timespan (expiresIn : string) (timestamp : Z) : option Z :=
  match ms expiresIn with
  | Some milliseconds => Some (timestamp + milliseconds / 1000)%Z
  | None => None
  end.

(** Modelled from the spec: [jwt.sign(payload, secret, { expiresIn })] of
    the [jsonwebtoken] package.  Section 4.2: a signed string encoding
    the payload plus an expiration derived from [expireTime] and from the
    implicit issued-at instant [now] (seconds); signing returns a string
    or raises.  Where the spec is silent the package's documented
    behaviour is followed: the secret must have a value, the time claims
    of the payload must be numbers, the payload must not carry its own
    [exp], and the issue time is recorded as [iat]. *)
Definition jwt_sign (now : Z) (payload : gmap string json)
    (secret : string) (expiresIn : string) : outcome token :=
  if String.eqb secret "" then
    Thrown (Error "secretOrPrivateKey must have a value")
  else if negb (number_or_absent (payload !! "iat")) then
    Thrown (Error "iat should be a number of seconds")
  else if negb (number_or_absent (payload !! "exp")) then
    Thrown (Error "exp should be a number of seconds")
  else if negb (number_or_absent (payload !! "nbf")) then
    Thrown (Error "nbf should be a number of seconds")
  else if bool_decide (is_Some (payload !! "exp")) then
    Thrown (Error "Bad options.expiresIn option the payload already has an exp property.")
  else
    let timestamp := issued_at now payload in
    match timespan expiresIn timestamp with
    | None =>
        Thrown (Error "expiresIn should be a number of seconds or string representing a timespan")
    | Some exp =>
        Returned
          {| claims :=
               <["exp" := JNum exp]> (<["iat" := JNum timestamp]> payload);
             signed_with := secret |}
    end.

(** The [nbf] and [exp] checks of verification, at clock [now]. *)
Definition check_nbf (now : Z) (c : gmap string json) : option exn :=
  match c !! "nbf" with
  | None => None
  | Some (JNum n) =>
      if (now <? n)%Z then Some (NotBeforeError "jwt not active" n)
      else None
  | Some _ => Some (JsonWebTokenError "invalid nbf value")
  end.

Definition check_exp (now : Z) (c : gmap string json) : option exn :=
  match c !! "exp" with
  | None => None
  | Some (JNum n) =>
      if (n <=? now)%Z then Some (TokenExpiredError "jwt expired" n)
      else None
  | Some _ => Some (JsonWebTokenError "invalid exp value")
  end.

(** Modelled from the spec: [jwt.verify(token, secret)] of the
    [jsonwebtoken] package.  Section 4.2: returns the decoded payload
    mapping if the token was signed with [secret] and has not expired,
    and raises an error classified as invalid signature or expired
    otherwise.  The decoded mapping is the whole set of claims that the
    token encodes. *)
Definition jwt_verify (now : Z) (tok : token) (secret : string)
  : outcome (gmap string json) :=
  if String.eqb secret "" then
    Thrown (JsonWebTokenError "secret or public key must be provided")
  else if negb (String.eqb (signed_with tok) secret) then
    Thrown (JsonWebTokenError "invalid signature")
  else
    match check_nbf now (claims tok) with
    | Some e => Thrown e
    | None =>
        match check_exp now (claims tok) with
        | Some e => Thrown e
        | None => Returned (claims tok)
        end
    end.

(** Lines 3 to 10.  The clock is the first argument. *)
Definition createToken (now : Z) (payload : gmap string json)
    (secret : string) (expireTime : string) : outcome token :=
  jwt_sign now payload secret expireTime.

(** Lines 12 to 14. *)
Definition verifyToken (now : Z) (tok : token) (secret : string)
  : outcome (gmap string json) :=
  jwt_verify now tok secret.

(** [verifyToken(createToken(payload, secret, expireTime), secret)], the
    token issued at [issued] and checked at [checked]. *)
Definition round_trip (issued checked : Z) (payload : gmap string json)
    (secret : string) (expireTime : string)
  : outcome (gmap string json) :=
  match createToken issued payload secret expireTime with
  | Returned tok => verifyToken checked tok secret
  | Thrown e => Thrown e
  end.

End Codec.

(** The two durations that the spec mentions, in milliseconds. *)
Definition ms_sample (s : string) : option Z :=
  if String.eqb s "1h" then Some 3600000%Z
  else if String.eqb s "7d" then Some 604800000%Z
  else None.

Definition sample_payload : gmap string json :=
  {[ "userId" := JStr "u-42" ]}.

End Jwt.

(** ** The name rules in the words of the spec *)

Module SpecWords.

Definition is_whitespace (c : ascii) : bool :=
  let n := nat_of_ascii c in
  Nat.eqb n 32 || (Nat.leb 9 n && Nat.leb n 13).

Definition nonempty (s : string) : bool := negb (String.eqb s "").

(** The whitespace-delimited tokens of a string. *)
Definition tokens (s : string) : list string :=
  List.filter nonempty (JS.split_by is_whitespace s).

(** "first whitespace-delimited token of displayName, else User" *)
Definition firstName (displayName : option string) : string :=
  match displayName with
  | Some d => match tokens d with t :: _ => t | [] => "User" end
  | None => "User"
  end.

(** "remaining tokens joined by space, else empty string" *)
Definition lastName (displayName : option string) : string :=
  match displayName with
  | Some d => JS.join_space (tail (tokens d))
  | None => ""
  end.

End SpecWords.

(** The text of a string before its first space character, and the text
    after it. *)
Fixpoint before_space (s : string) : string :=
  match s with
  | EmptyString => EmptyString
  | String c rest =>
      if JS.is_space c then EmptyString else String c (before_space rest)
  end.

Fixpoint after_space (s : string) : string :=
  match s with
  | EmptyString => EmptyString
  | String c rest => if JS.is_space c then rest else after_space rest
  end.

(** A string without a space character. *)
Fixpoint space_free (s : string) : bool :=
  match s with
  | EmptyString => true
  | String c rest => negb (JS.is_space c) && space_free rest
  end.

(** Whether a string has a space character. *)
Fixpoint has_space (s : string) : bool :=
  match s with
  | EmptyString => false
  | String c rest => JS.is_space c || has_space rest
  end.

Definition is_find (ev : event) : bool :=
  match ev with CallFindOne _ => true | _ => false end.

(** ** The configuration that the template asks for (lines 96 to 104) *)

Definition default_callbackURL : string :=
  "http://localhost:5000/api/v1/oauth/github/callback".

(** [process.env]: a variable is a string or is not set. *)
Definition documented_config (env : string -> option string) : OAuthConfig :=
  {| oauth_github :=
       Some {| clientID := Some (JS.or_lit (env "GITHUB_OAUTH_CLIENT_ID") "");
               clientSecret :=
                 Some (JS.or_lit (env "GITHUB_OAUTH_CLIENT_SECRET") "");
               callbackURL :=
                 Some (JS.or_lit (env "GITHUB_OAUTH_CALLBACK_URL")
                                 default_callbackURL) |} |}.

(** ** What a handshake may expect of a persistence service

    A lookup that returned can be repeated with the same answer; a record
    that was created or saved is what the next lookup by its email finds. *)
Record lawful_store {DB : Type} `{UserModel DB} : Prop := {
  find_again : forall e db r db1,
    User_findOne e db = (Returned r, db1) ->
    User_findOne e db1 = (Returned r, db1);
  create_then_find : forall fields db u db1,
    User_create fields db = (Returned u, db1) ->
    u = fields
    /\ User_findOne (email fields) db1 = (Returned (Some fields), db1);
  save_then_find : forall doc db db1,
    User_save doc db = (Returned tt, db1) ->
    User_findOne (email doc) db1 = (Returned (Some doc), db1)
}.
Arguments lawful_store DB {_}.

Definition ada_env (var : string) : option string :=
  if String.eqb var "GITHUB_OAUTH_CLIENT_ID" then Some "Iv1.0123456789abcdef"
  else if String.eqb var "GITHUB_OAUTH_CLIENT_SECRET" then Some "s3cr3t"
  else None.

(** A continuation that throws on a success report and returns on an error
    report. *)
Definition session_failure : exn := Error "Failed to serialize user".
Definition failing_login (err : option exn) (user : option UserRecord)
  : outcome unit :=
  match err with
  | None => Thrown session_failure
  | Some _ => Returned tt
  end.

(** A continuation that throws the error it is given. *)
Definition rethrowing (err : option exn) (user : option UserRecord)
  : outcome unit :=
  match err with
  | Some ex => Thrown ex
  | None => Returned tt
  end.

(** A continuation that throws on every report. *)
Definition broken_middleware (err : option exn) (user : option UserRecord)
  : outcome unit :=
  Thrown session_failure.

(** A profile whose first email entry has no value and whose second has. *)
Definition second_email_only : Profile :=
  {| id := "99"; displayName := Some "Grace Hopper";
     emails := Some [ {| value := None |};
                      {| value := Some "grace@example.org" |} ];
     photos := None; flat_email := Some ""; login := None;
     avatarUrl := None; profile_location := None |}.

(** The calls of a log that go to the persistence service. *)
Definition persistence_calls (log : list event) : list event :=
  filter (fun ev => is_persistence ev = true) log.

(** * Properties *)

(** ** Strings: [split(' ')], [join(' ')] and the first space *)

Lemma split_by_nonempty is_sep s : JS.split_by is_sep s <> [].
Proof.
  destruct s as [|c rest]; simpl; [discriminate|].
  destruct (is_sep c); [discriminate|].
  destruct (JS.split_by is_sep rest); discriminate.
Qed.

Lemma join_space_cons x y ys :
  JS.join_space (x :: y :: ys) = x +:+ " " +:+ JS.join_space (y :: ys).
Proof. reflexivity. Qed.

Lemma join_space_String c x xs :
  JS.join_space (String c x :: xs) = String c (JS.join_space (x :: xs)).
Proof. destruct xs; reflexivity. Qed.

(** Joining the pieces of a split gives the string back. *)
Lemma join_split_space s : JS.join_space (JS.split_space s) = s.
Proof.
  unfold JS.split_space.
  induction s as [|c rest IH]; [reflexivity|].
  simpl. destruct (JS.is_space c) eqn:Hc.
  - apply Ascii.eqb_eq in Hc. subst c.
    pose proof (split_by_nonempty JS.is_space rest) as Hne.
    destruct (JS.split_by JS.is_space rest) as [|y ys] eqn:E; [done|].
    rewrite join_space_cons, IH. reflexivity.
  - pose proof (split_by_nonempty JS.is_space rest) as Hne.
    destruct (JS.split_by JS.is_space rest) as [|y ys] eqn:E; [done|].
    rewrite join_space_String, IH. reflexivity.
Qed.

Lemma first_split_space s :
  JS.first (JS.split_space s) = Some (before_space s).
Proof.
  unfold JS.split_space, JS.first.
  induction s as [|c rest IH]; [reflexivity|].
  simpl. destruct (JS.is_space c); [reflexivity|].
  destruct (JS.split_by JS.is_space rest) as [|y ys]; [discriminate|].
  simpl in *. congruence.
Qed.

Lemma rest_split_space s :
  JS.join_space (JS.slice1 (JS.split_space s)) = after_space s.
Proof.
  unfold JS.slice1.
  induction s as [|c rest IH]; [reflexivity|].
  unfold JS.split_space in *. simpl. destruct (JS.is_space c).
  - simpl. apply join_split_space.
  - pose proof (split_by_nonempty JS.is_space rest) as Hne.
    destruct (JS.split_by JS.is_space rest) as [|y ys]; [done|].
    simpl in *. exact IH.
Qed.

Lemma before_space_token t rest :
  space_free t = true ->
  before_space (t +:+ " " +:+ rest) = t
  /\ after_space (t +:+ " " +:+ rest) = rest.
Proof.
  induction t as [|c t IH]; simpl; [done|].
  intros [Hc Ht]%andb_true_iff. apply negb_true_iff in Hc. rewrite Hc.
  destruct (IH Ht) as [-> ->]. done.
Qed.

Lemma before_space_single t :
  space_free t = true -> before_space t = t /\ after_space t = "".
Proof.
  induction t as [|c t IH]; simpl; [done|].
  intros [Hc Ht]%andb_true_iff. apply negb_true_iff in Hc. rewrite Hc.
  destruct (IH Ht) as [-> ->]. done.
Qed.

(** ** The name rules (lines 56 to 58) *)

Example ada_firstName : derive_firstName ada = "Ada".
Proof. reflexivity. Qed.

Example ada_lastName : derive_lastName ada = "Lovelace".
Proof. reflexivity. Qed.

Example ada99_name :
  derive_name ada99 = "ada99" /\ derive_firstName ada99 = "User".
Proof. split; reflexivity. Qed.

Lemma derive_firstName_before_space p :
  derive_firstName p =
    match displayName p with
    | Some d =>
        if String.eqb (before_space d) "" then "User" else before_space d
    | None => "User"
    end.
Proof.
  unfold derive_firstName. destruct (displayName p) as [d|]; [|reflexivity].
  rewrite first_split_space. reflexivity.
Qed.

Lemma derive_lastName_after_space p :
  derive_lastName p =
    match displayName p with
    | Some d => after_space d
    | None => ""
    end.
Proof.
  unfold derive_lastName. destruct (displayName p) as [d|]; [|reflexivity].
  rewrite rest_split_space. unfold JS.or_lit.
  destruct (String.eqb (after_space d) "") eqn:E; [|reflexivity].
  apply String.eqb_eq in E. congruence.
Qed.

(** C9, as the code has it.  [name] is the display name unless it is absent
    or empty, else the login unless it is absent or empty, else User.
    [firstName] is the text of the display name before its first space
    character, and User when the display name is absent or that text is
    empty.  [lastName] is the text after the first space character, and the
    empty string when there is none.  Ada Lovelace gives Ada and Lovelace;
    no display name and login ada99 give the name ada99 and the first name
    User. *)
Theorem name_rules :
  (forall p : Profile,
      derive_name p =
        match displayName p, login p with
        | Some d, Some l =>
            if String.eqb d "" then if String.eqb l "" then "User" else l
            else d
        | Some d, None => if String.eqb d "" then "User" else d
        | None, Some l => if String.eqb l "" then "User" else l
        | None, None => "User"
        end
      /\ derive_firstName p =
           match displayName p with
           | Some d =>
               if String.eqb (before_space d) "" then "User"
               else before_space d
           | None => "User"
           end
      /\ derive_lastName p =
           match displayName p with
           | Some d => after_space d
           | None => ""
           end)
  /\ (forall p : Profile, displayName p = Some "Ada Lovelace" ->
        derive_firstName p = "Ada" /\ derive_lastName p = "Lovelace")
  /\ (forall p : Profile, displayName p = None -> login p = Some "ada99" ->
        derive_name p = "ada99" /\ derive_firstName p = "User").
Proof.
  split; [|split].
  - intros p. repeat split.
    + unfold derive_name, JS.or, JS.or_lit, JS.truthy.
      destruct (displayName p) as [d|], (login p) as [l|]; simpl;
        try destruct (String.eqb d "") eqn:Ed; simpl;
        try destruct (String.eqb l "") eqn:El; simpl;
        rewrite ?Ed, ?El; reflexivity.
    + apply derive_firstName_before_space.
    + apply derive_lastName_after_space.
  - intros p Hd. unfold derive_firstName, derive_lastName. rewrite Hd.
    split; reflexivity.
  - intros p Hd Hl. unfold derive_name, derive_firstName. rewrite Hd, Hl.
    split; reflexivity.
Qed.

(** X15.  On a display name written as tokens with one space between them, the
    first token not empty and none containing a space, the code gives the
    first token and the remaining tokens joined by spaces. *)
Lemma name_rules_on_tokens p t ts :
  displayName p = Some (JS.join_space (t :: ts)) ->
  t <> "" -> space_free t = true ->
  derive_firstName p = t /\ derive_lastName p = JS.join_space ts.
Proof.
  intros Hd Hne Hfree.
  rewrite derive_firstName_before_space, derive_lastName_after_space, Hd.
  apply String.eqb_neq in Hne.
  destruct ts as [|t' ts].
  - change (JS.join_space [t]) with t.
    destruct (before_space_single t Hfree) as [-> ->].
    simpl. rewrite Hne. done.
  - rewrite join_space_cons.
    destruct (before_space_token t (JS.join_space (t' :: ts)) Hfree)
      as [-> ->].
    rewrite Hne. done.
Qed.

(** The claim of C9 fails where the display name has two spaces in a row:
    the tokens are Ada and Lovelace, and the code gives the last name a
    leading space. *)
Lemma name_rules_double_space :
  let p := {| id := "1"; displayName := Some "Ada  Lovelace"; emails := None;
              photos := None; flat_email := None; login := None;
              avatarUrl := None; profile_location := None |} in
  SpecWords.lastName (displayName p) = "Lovelace"
  /\ derive_lastName p = " Lovelace"
  /\ derive_lastName p <> SpecWords.lastName (displayName p).
Proof. repeat split. discriminate. Qed.

(** A leading space and a tab show the same for the first name. *)
Example name_rules_leading_space :
  SpecWords.firstName (Some " Ada") = "Ada"
  /\ forall p, displayName p = Some " Ada" -> derive_firstName p = "User".
Proof.
  split; [reflexivity|]. intros p Hd. unfold derive_firstName. rewrite Hd.
  reflexivity.
Qed.

(** ** Construction of the strategy *)

Section Construction.
Context {DB : Type} `{UserModel DB}.

(** C3, as the code has it.  The strategy is constructed exactly when the
    configuration has a github entry whose client identifier and client
    secret are both present and non-empty; it then carries the three
    configured values, the callback address as it is, and the verify
    callback.  The callback address takes no part in the decision. *)
Theorem githubStrategy_constructed (oauth : OAuthConfig) :
  (is_Some (githubStrategy oauth) <->
     exists cfg, oauth_github oauth = Some cfg
                 /\ JS.truthy (clientID cfg) = true
                 /\ JS.truthy (clientSecret cfg) = true)
  /\ (forall s, githubStrategy oauth = Some s ->
        exists cfg, oauth_github oauth = Some cfg
                    /\ strategy_clientID s = clientID cfg
                    /\ strategy_clientSecret s = clientSecret cfg
                    /\ strategy_callbackURL s = callbackURL cfg
                    /\ strategy_verify s = verify_callback).
Proof.
  unfold githubStrategy. destruct (oauth_github oauth) as [cfg|].
  - destruct (JS.truthy (clientID cfg)) eqn:Hid;
      destruct (JS.truthy (clientSecret cfg)) eqn:Hsecret; simpl.
    + split.
      * split; [intros _; exists cfg; auto | intros _; eauto].
      * intros s [= <-]. exists cfg. simpl. auto.
    + split; [|discriminate]. split; [intros [? [=]]|].
      intros (c & [= <-] & _ & Hs). congruence.
    + split; [|discriminate]. split; [intros [? [=]]|].
      intros (c & [= <-] & Hi & _). congruence.
    + split; [|discriminate]. split; [intros [? [=]]|].
      intros (c & [= <-] & Hi & _). congruence.
  - split; [|discriminate]. split; [intros [? [=]]|].
    intros (c & [=] & _).
Qed.

End Construction.

(** The claim of C3 fails for a configuration with both credentials and an
    empty callback address: not all three are non-empty, and the strategy is
    constructed all the same. *)
Lemma githubStrategy_without_callbackURL :
  let oauth :=
    {| oauth_github :=
         Some {| clientID := Some "Iv1.0123456789abcdef";
                 clientSecret := Some "s3cr3t";
                 callbackURL := Some "" |} |} in
  all_three_credentials oauth = false
  /\ is_Some (githubStrategy (DB := MemDB) oauth).
Proof. split; [reflexivity|]. simpl. eauto. Qed.

(** ** The verify callback *)

Lemma truthy_Some e : e <> "" -> JS.truthy (Some e) = true.
Proof.
  intros He. simpl. destruct (String.eqb e "") eqn:E; [|reflexivity].
  apply String.eqb_eq in E. contradiction.
Qed.

Lemma falsy_Some e : e <> "" -> JS.falsy (Some e) = false.
Proof. intros He. unfold JS.falsy. rewrite truthy_Some; done. Qed.

Lemma falsy_truthy v : JS.falsy v = true -> JS.truthy v = false.
Proof. unfold JS.falsy. destruct (JS.truthy v); done. Qed.

Lemma first_value_empty (xs : option (list Entry)) :
  xs = None \/ xs = Some [] -> first_value xs = None.
Proof. intros [-> | ->]; reflexivity. Qed.

(** Unfolds the monad of the handler. *)
Ltac unfold_run :=
  unfold verify_callback, verify_callback_with, verify_body_with, call_done,
    returning, second_report, try_catch, mbind, run_mbind, run_bind, call,
    result_of, db_of, log_of in *.

Section Handshake.
Context {DB : Type} `{UserModel DB}.
Implicit Types (profile : Profile) (db : DB) (user : UserRecord).

(** The handler past the email check, with the lookup still to be made. *)
Lemma verify_callback_resolved a r profile db e :
  resolve_email profile = Some e -> e <> "" ->
  verify_callback a r profile db =
    try_catch
      (found ← call (CallFindOne e) (User_findOne e);
       match found with
       | None =>
           user ← call (CallCreate (new_user e profile))
                       (User_create (new_user e profile));
           call_done returning None (Some user)
       | Some user =>
           if JS.falsy (providerId user) then
             call (CallSave (backfill profile user))
                  (User_save (backfill profile user));;
             call_done returning None (Some (backfill profile user))
           else call_done returning None (Some user)
       end)
      (fun error => call_done returning (Some error) None) db.
Proof.
  intros He Hne.
  unfold verify_callback, verify_callback_with, verify_body_with.
  rewrite He, (falsy_Some e Hne). reflexivity.
Qed.



(** C5.  When the resolved email finds a record that already has a
    [providerId], the handshake consists of the lookup and of
    [done(null, user)] with that very record: no create, no save, no
    change to the record, and the persistence state is the one the lookup
    left. *)
Theorem linked_record_untouched a r profile db db1 e user :
  resolve_email profile = Some e -> e <> "" ->
  User_findOne e db = (Returned (Some user), db1) ->
  JS.truthy (providerId user) = true ->
  verify_callback a r profile db =
    (Returned tt, db1, [ CallFindOne e; CallDone None (Some user) ])
  /\ count is_write (log_of (verify_callback a r profile db)) = 0.
Proof.
  intros He Hne Hfind Hlinked.
  rewrite (verify_callback_resolved a r profile db e He Hne).
  unfold_run. rewrite Hfind. unfold JS.falsy. rewrite Hlinked.
  split; reflexivity.
Qed.

(** The handler with no usable email: whatever makes the resolved email
    falsy. *)
Lemma verify_callback_no_email a r profile db :
  JS.falsy (resolve_email profile) = true ->
  verify_callback a r profile db =
    (Returned tt, db, [ CallDone (Some no_email) None ]).
Proof.
  intros Hfalsy.
  unfold verify_callback, verify_callback_with, verify_body_with.
  rewrite Hfalsy.
  reflexivity.
Qed.

(** C6.  A profile whose [emails] is absent or empty and which has no flat
    [email] field makes the handler call [done] with the error No email
    provided by GitHub and nothing else: no lookup, no create, no save, and
    the persistence state is untouched. *)
Theorem no_email_is_a_hard_stop a r profile db :
  emails profile = None \/ emails profile = Some [] ->
  flat_email profile = None ->
  verify_callback a r profile db =
    (Returned tt, db,
     [ CallDone (Some (Error "No email provided by GitHub")) None ])
  /\ count is_persistence (log_of (verify_callback a r profile db)) = 0.
Proof.
  intros Hemails Hflat.
  rewrite verify_callback_no_email.
  - split; reflexivity.
  - unfold resolve_email. rewrite (first_value_empty _ Hemails), Hflat.
    reflexivity.
Qed.

(** C8, as the code has it.  An exception thrown by the lookup, by the
    create or by the save is caught and handed to [done] as it is, in the
    one call of [done] that the handshake then makes; the outcome of the
    handler is the outcome of that call, so that the handler returns
    whenever the continuation does. *)
Theorem persistence_failure_reported
    (done_k : option exn -> option UserRecord -> outcome unit)
    a r profile db e ex :
  resolve_email profile = Some e -> e <> "" ->
  (exists db1, User_findOne e db = (Thrown ex, db1))
  \/ (exists db1 db2,
        User_findOne e db = (Returned None, db1)
        /\ User_create (new_user e profile) db1 = (Thrown ex, db2))
  \/ (exists user db1 db2,
        User_findOne e db = (Returned (Some user), db1)
        /\ JS.falsy (providerId user) = true
        /\ User_save (backfill profile user) db1 = (Thrown ex, db2)) ->
  done_calls (log_of (verify_callback_with done_k a r profile db))
  = [ (Some ex, None) ]
  /\ result_of (verify_callback_with done_k a r profile db)
     = done_k (Some ex) None
  /\ (done_k (Some ex) None = Returned tt ->
        result_of (verify_callback_with done_k a r profile db) = Returned tt).
Proof.
  intros He Hne Hthrow. unfold_run. rewrite He, (falsy_Some e Hne). simpl.
  destruct Hthrow as [(db1 & Hfind) | [(db1 & db2 & Hfind & Hcreate)
                     | (user & db1 & db2 & Hfind & Hunlinked & Hsave)]].
  - rewrite Hfind. simpl. auto.
  - rewrite Hfind, Hcreate. simpl. auto.
  - rewrite Hfind, Hunlinked, Hsave. simpl. auto.
Qed.


End Handshake.

(** ** The token helper *)

Section TokenCodec.
Import Jwt.
Variable ms : string -> option Z.
Implicit Types (payload : gmap string json) (secret : string).
Local Open Scope Z_scope.

(** What [createToken] returns for a payload without time claims. *)
Lemma createToken_plain now payload secret expireTime milliseconds :
  ms expireTime = Some milliseconds ->
  secret <> "" ->
  payload !! "iat" = None -> payload !! "exp" = None ->
  payload !! "nbf" = None ->
  createToken ms now payload secret expireTime =
    Returned
      {| claims :=
           <["exp" := JNum (now + milliseconds / 1000)]>
             (<["iat" := JNum now]> payload);
         signed_with := secret |}.
Proof.
  intros Hms Hsecret Hiat Hexp Hnbf.
  unfold createToken, jwt_sign, timespan, issued_at.
  apply String.eqb_neq in Hsecret.
  rewrite Hsecret, Hiat, Hexp, Hnbf, Hms. reflexivity.
Qed.

(** C1, as the code has it.  For a payload that has no [iat], [exp] or
    [nbf] entry, a non-empty secret and the duration 1h, verifying the
    created token with the same secret before its expiry returns every
    entry of the payload unchanged and, next to them, the two claims that
    signing adds: [iat], the issue time, and [exp], one hour later.  The
    returned mapping is therefore not the payload itself. *)
Theorem round_trip_keeps_entries issued checked payload secret :
  ms "1h" = Some 3600000 ->
  secret <> "" ->
  payload !! "iat" = None -> payload !! "exp" = None ->
  payload !! "nbf" = None ->
  checked < issued + 3600 ->
  exists decoded,
    round_trip ms issued checked payload secret "1h" = Returned decoded
    /\ (forall k, k <> "iat" -> k <> "exp" -> decoded !! k = payload !! k)
    /\ (forall k v, payload !! k = Some v -> decoded !! k = Some v)
    /\ decoded !! "iat" = Some (JNum issued)
    /\ decoded !! "exp" = Some (JNum (issued + 3600))
    /\ delete "iat" (delete "exp" decoded) = payload
    /\ decoded <> payload.
Proof.
  intros Hms Hsecret Hiat Hexp Hnbf Hfresh.
  exists (<["exp" := JNum (issued + 3600)]> (<["iat" := JNum issued]> payload)).
  split.
  - unfold round_trip.
    rewrite (createToken_plain issued payload secret "1h" 3600000)
      by assumption.
    change (3600000 / 1000) with 3600.
    unfold verifyToken, jwt_verify, check_nbf, check_exp. simpl.
    apply String.eqb_neq in Hsecret. rewrite Hsecret, String.eqb_refl.
    simpl. rewrite lookup_insert_ne, lookup_insert_ne, Hnbf by done.
    rewrite lookup_insert_eq.
    destruct (issued + 3600 <=? checked) eqn:Hle; [lia|reflexivity].
  - repeat split.
    + intros k Hk1 Hk2. rewrite !lookup_insert_ne by done. reflexivity.
    + intros k v Hk.
      rewrite !lookup_insert_ne by congruence. exact Hk.
    + rewrite lookup_insert_ne by done. apply lookup_insert_eq.
    + apply lookup_insert_eq.
    + rewrite delete_insert_eq, delete_insert_ne, delete_insert_eq by done.
      rewrite (delete_id payload "exp") by done. apply delete_id, Hiat.
    + intros Heq. apply (f_equal (lookup "exp")) in Heq.
      rewrite lookup_insert_eq, Hexp in Heq. discriminate.
Qed.

(** C7.  Verification raises, and returns no payload, for a token that was
    signed with another secret than the one supplied, and for a token
    whose expiry time has been reached. *)
Theorem verifyToken_rejects now tok secret :
  signed_with tok <> secret
  \/ (exists t, claims tok !! "exp" = Some (JNum t) /\ t <= now) ->
  exists error, verifyToken now tok secret = Thrown error.
Proof.
  intros Hbad. unfold verifyToken, jwt_verify.
  destruct (String.eqb secret "") eqn:Hempty; [eauto|].
  destruct (String.eqb (signed_with tok) secret) eqn:Hsig; simpl.
  - destruct Hbad as [Hother | (t & Hexp & Hpast)].
    + apply String.eqb_eq in Hsig. contradiction.
    + destruct (check_nbf now (claims tok)) as [e|]; [eauto|].
      unfold check_exp. rewrite Hexp.
      destruct (t <=? now) eqn:Hle; [eauto|lia].
  - eauto.
Qed.

(** How the two errors are classified: invalid signature for a secret
    that differs from the signing secret, expired for a token of
    [createToken] checked with the right secret at or after its expiry. *)
Lemma verifyToken_invalid_signature now tok secret :
  secret <> "" -> signed_with tok <> secret ->
  verifyToken now tok secret =
    Thrown (JsonWebTokenError "invalid signature").
Proof.
  intros Hsecret Hother. unfold verifyToken, jwt_verify.
  apply String.eqb_neq in Hsecret, Hother. rewrite Hsecret, Hother.
  reflexivity.
Qed.

Lemma verifyToken_expired issued checked payload secret :
  ms "1h" = Some 3600000 ->
  secret <> "" ->
  payload !! "iat" = None -> payload !! "exp" = None ->
  payload !! "nbf" = None ->
  issued + 3600 <= checked ->
  round_trip ms issued checked payload secret "1h" =
    Thrown (TokenExpiredError "jwt expired" (issued + 3600)).
Proof.
  intros Hms Hsecret Hiat Hexp Hnbf Hpast. unfold round_trip.
  rewrite (createToken_plain issued payload secret "1h" 3600000)
    by assumption.
  change (3600000 / 1000) with 3600.
  unfold verifyToken, jwt_verify, check_nbf, check_exp. simpl.
  apply String.eqb_neq in Hsecret. rewrite Hsecret, String.eqb_refl.
  simpl. rewrite lookup_insert_ne, lookup_insert_ne, Hnbf by done.
  rewrite lookup_insert_eq.
  destruct (issued + 3600 <=? checked) eqn:Hle; [reflexivity|lia].
Qed.

End TokenCodec.

(** The claim of C1 fails on a one-entry payload: checked before the expiry,
    the round trip returns the payload together with [iat] and [exp], which
    is another mapping than the payload. *)
Lemma round_trip_is_not_identity :
  let payload := Jwt.sample_payload in
  let decoded :=
    <["exp" := Jwt.JNum 4600]> (<["iat" := Jwt.JNum 1000]> payload) in
  (1200 < 1000 + 3600)%Z
  /\ Jwt.round_trip Jwt.ms_sample 1000 1200 payload "s3cr3t" "1h"
     = Returned decoded
  /\ decoded !! "exp" = Some (Jwt.JNum 4600)
  /\ payload !! "exp" = None
  /\ decoded <> payload.
Proof.
  repeat split.
  intros Heq. apply (f_equal (lookup "exp")) in Heq. discriminate.
Qed.

(** The claim of C8 fails for a continuation that throws the error it is
    given: the exception of the lookup is reported to it, unmodified, and
    then leaves the handler. *)
Lemma lookup_exception_leaves_handler :
  User_findOne "ada@example.org" offline_db
  = (Thrown connection_lost, offline_db)
  /\ verify_callback_with rethrowing "access" "refresh" ada offline_db
     = (Thrown connection_lost, offline_db,
        [ CallFindOne "ada@example.org";
          CallDone (Some connection_lost) None ]).
Proof. split; reflexivity. Qed.


(** ** The properties at sample inputs *)

Lemma round_trip_keeps_entries_sample :
  exists decoded,
    Jwt.round_trip Jwt.ms_sample 1000 1200 Jwt.sample_payload "s3cr3t" "1h"
    = Returned decoded
    /\ (forall k, k <> "iat" -> k <> "exp" ->
          decoded !! k = Jwt.sample_payload !! k)
    /\ (forall k v, Jwt.sample_payload !! k = Some v -> decoded !! k = Some v)
    /\ decoded !! "iat" = Some (Jwt.JNum 1000)
    /\ decoded !! "exp" = Some (Jwt.JNum (1000 + 3600))
    /\ delete "iat" (delete "exp" decoded) = Jwt.sample_payload
    /\ decoded <> Jwt.sample_payload.
Proof.
  apply (round_trip_keeps_entries Jwt.ms_sample 1000 1200 Jwt.sample_payload
           "s3cr3t");
    [reflexivity | discriminate | reflexivity | reflexivity | reflexivity
    | lia].
Defined.

Lemma verifyToken_rejects_sample :
  exists error,
    Jwt.verifyToken 1200
      {| Jwt.claims := Jwt.sample_payload; Jwt.signed_with := "s3cr3t" |}
      "another secret"
    = Thrown error.
Proof.
  apply verifyToken_rejects. left. simpl. discriminate.
Defined.



Lemma linked_record_untouched_sample :
  verify_callback "access" "refresh" ada (db_with linked_ada) =
    (Returned tt, db_with linked_ada,
     [ CallFindOne "ada@example.org"; CallDone None (Some linked_ada) ])
  /\ count is_write
       (log_of (verify_callback "access" "refresh" ada (db_with linked_ada)))
     = 0.
Proof.
  apply (linked_record_untouched (DB := MemDB) "access" "refresh" ada
           (db_with linked_ada) (db_with linked_ada) "ada@example.org"
           linked_ada);
    [reflexivity | discriminate | reflexivity | reflexivity].
Defined.

Lemma no_email_is_a_hard_stop_sample :
  verify_callback "access" "refresh" anonymous (db_with local_ada) =
    (Returned tt, db_with local_ada,
     [ CallDone (Some (Error "No email provided by GitHub")) None ])
  /\ count is_persistence
       (log_of (verify_callback "access" "refresh" anonymous
                  (db_with local_ada))) = 0.
Proof.
  apply (no_email_is_a_hard_stop (DB := MemDB)); [right | ]; reflexivity.
Defined.

Lemma persistence_failure_reported_sample :
  done_calls
    (log_of (verify_callback_with failing_login "access" "refresh" ada
               offline_db))
  = [ (Some connection_lost, None) ]
  /\ result_of (verify_callback_with failing_login "access" "refresh" ada
                  offline_db)
     = failing_login (Some connection_lost) None
  /\ (failing_login (Some connection_lost) None = Returned tt ->
        result_of (verify_callback_with failing_login "access" "refresh" ada
                     offline_db)
        = Returned tt).
Proof.
  apply (persistence_failure_reported (DB := MemDB) failing_login "access"
           "refresh" ada offline_db "ada@example.org" connection_lost);
    [reflexivity | discriminate | left; exists offline_db; reflexivity].
Defined.

(** The store after the three kinds of handshake. *)
Example first_handshake_store :
  documents (db_of (verify_callback "access" "refresh" ada empty_db))
  = {[ "ada@example.org" := new_user "ada@example.org" ada ]}.
Proof. reflexivity. Qed.

Example backfill_store :
  documents (db_of (verify_callback "access" "refresh" ada (db_with local_ada)))
    !! "ada@example.org"
  = Some linked_ada.
Proof. reflexivity. Qed.

Example fallback_email :
  resolve_email ada99 = Some "ada@example.org".
Proof. reflexivity. Qed.

(** * Further properties of the code *)

(** ** Which email the handshake works with (line 43) *)

Lemma falsy_false_inv v :
  JS.falsy v = false -> exists e, v = Some e /\ e <> "".
Proof.
  unfold JS.falsy. destruct v as [e|]; simpl; [|discriminate].
  destruct (String.eqb e "") eqn:E; [discriminate|].
  intros _. exists e. split; [reflexivity|]. by apply String.eqb_neq.
Qed.

Lemma falsy_true_not_Some v e :
  JS.falsy v = true -> v = Some e -> e = "".
Proof.
  intros Hf ->. unfold JS.falsy in Hf. simpl in Hf.
  destruct (String.eqb e "") eqn:E; [by apply String.eqb_eq|discriminate].
Qed.

Section HandshakeTraces.
Context {DB : Type} `{UserModel DB}.
Implicit Types (profile : Profile) (db : DB) (user : UserRecord).

(** X1.  The handshake begins with the lookup of the first entry of [emails]
    whenever that entry has a non-empty value, whatever the later entries
    and the flat email field are. *)
Theorem lookup_uses_first_email a r profile db v rest :
  emails profile = Some ({| value := Some v |} :: rest) ->
  v <> "" ->
  exists later,
    log_of (verify_callback a r profile db) = CallFindOne v :: later.
Proof.
  intros Hemails Hv.
  assert (resolve_email profile = Some v) as He.
  { unfold resolve_email, JS.or. rewrite Hemails. simpl first_value.
    by rewrite truthy_Some. }
  rewrite (verify_callback_resolved a r profile db v He Hv). unfold_run.
  destruct (User_findOne v db) as [[[user|]|ex] db1]; simpl.
  - destruct (JS.falsy (providerId user)); [|eauto].
    destruct (User_save _ db1) as [[[]|ex] db2]; simpl; eauto.
  - destruct (User_create _ db1) as [[u|ex] db2]; simpl; eauto.
  - eauto.
Qed.

(** X2.  When the first entry of [emails] gives no usable value (no [emails], an
    empty sequence, an entry without value or with an empty one), the lookup
    is made with the flat email field, if that is non-empty. *)
Theorem lookup_falls_back_to_flat_email a r profile db v :
  JS.falsy (first_value (emails profile)) = true ->
  flat_email profile = Some v ->
  v <> "" ->
  exists later,
    log_of (verify_callback a r profile db) = CallFindOne v :: later.
Proof.
  intros Hfirst Hflat Hv.
  assert (resolve_email profile = Some v) as He.
  { unfold resolve_email, JS.or. by rewrite (falsy_truthy _ Hfirst). }
  rewrite (verify_callback_resolved a r profile db v He Hv). unfold_run.
  destruct (User_findOne v db) as [[[user|]|ex] db1]; simpl.
  - destruct (JS.falsy (providerId user)); [|eauto].
    destruct (User_save _ db1) as [[[]|ex] db2]; simpl; eauto.
  - destruct (User_create _ db1) as [[u|ex] db2]; simpl; eauto.
  - eauto.
Qed.

(** X3.  Only the first entry of [emails] counts: when its value is absent or
    empty and the flat email field is absent or empty, the handshake fails
    with the no-email error and touches nothing, however many further
    entries follow. *)
Theorem later_emails_are_ignored a r profile db v0 rest :
  emails profile = Some ({| value := v0 |} :: rest) ->
  JS.falsy v0 = true ->
  JS.falsy (flat_email profile) = true ->
  verify_callback a r profile db =
    (Returned tt, db, [ CallDone (Some no_email) None ]).
Proof.
  intros Hemails Hv0 Hflat. apply verify_callback_no_email.
  unfold resolve_email, JS.or. rewrite Hemails. simpl first_value.
  by rewrite (falsy_truthy _ Hv0).
Qed.

(** ** The shape of a handshake *)

(** X4.  Every handshake, under any continuation, is one of seven sequences
    of calls, decided by the answers of the persistence service: the
    no-email report; the lookup and the report of its exception; the lookup
    and the report of the linked record that it found; the lookup, the
    create and the report of the record that the create returned, or of its
    exception; the lookup, the save of the backfilled record and the report
    of that record, or of the exception of the save.  A report made inside
    the [try] block (no email, or a user) is followed by one more report,
    of what the continuation threw, exactly when the continuation threw on
    it. *)
Theorem handshake_trace_shape
    (done_k : option exn -> option UserRecord -> outcome unit)
    a r profile db :
  let log := log_of (verify_callback_with done_k a r profile db) in
  (JS.falsy (resolve_email profile) = true
   /\ log = CallDone (Some no_email) None
            :: second_report done_k (Some no_email) None)
  \/ exists e,
       resolve_email profile = Some e /\ e <> ""
       /\ ((exists ex db1,
              User_findOne e db = (Thrown ex, db1)
              /\ log = [ CallFindOne e; CallDone (Some ex) None ])
           \/ (exists user db1,
                 User_findOne e db = (Returned (Some user), db1)
                 /\ JS.truthy (providerId user) = true
                 /\ log = [ CallFindOne e; CallDone None (Some user) ]
                          ++ second_report done_k None (Some user))
           \/ (exists db1 u db2,
                 User_findOne e db = (Returned None, db1)
                 /\ User_create (new_user e profile) db1 = (Returned u, db2)
                 /\ log = [ CallFindOne e; CallCreate (new_user e profile);
                            CallDone None (Some u) ]
                          ++ second_report done_k None (Some u))
           \/ (exists db1 ex db2,
                 User_findOne e db = (Returned None, db1)
                 /\ User_create (new_user e profile) db1 = (Thrown ex, db2)
                 /\ log = [ CallFindOne e; CallCreate (new_user e profile);
                            CallDone (Some ex) None ])
           \/ (exists user db1 db2,
                 User_findOne e db = (Returned (Some user), db1)
                 /\ JS.falsy (providerId user) = true
                 /\ User_save (backfill profile user) db1 = (Returned tt, db2)
                 /\ log = [ CallFindOne e; CallSave (backfill profile user);
                            CallDone None (Some (backfill profile user)) ]
                          ++ second_report done_k None
                               (Some (backfill profile user)))
           \/ (exists user db1 ex db2,
                 User_findOne e db = (Returned (Some user), db1)
                 /\ JS.falsy (providerId user) = true
                 /\ User_save (backfill profile user) db1 = (Thrown ex, db2)
                 /\ log = [ CallFindOne e; CallSave (backfill profile user);
                            CallDone (Some ex) None ])).
Proof.
  intros log. subst log.
  destruct (JS.falsy (resolve_email profile)) eqn:Hfalsy.
  - left. split; [done|]. unfold_run. rewrite Hfalsy.
    by destruct (done_k (Some no_email) None) as [[]|ex0].
  - right. destruct (falsy_false_inv _ Hfalsy) as (e & He & Hne).
    exists e. split; [done|]. split; [done|].
    unfold_run. rewrite Hfalsy, He. simpl.
    destruct (User_findOne e db) as [[[user|]|ex] db1]; simpl.
    + destruct (JS.falsy (providerId user)) eqn:Hlinked.
      * destruct (User_save _ db1) as [[[]|ex] db2] eqn:Hsave; simpl.
        -- do 4 right. left. exists user, db1, db2.
           repeat split; try done.
           by destruct (done_k None (Some (backfill profile user)))
             as [[]|ex0].
        -- do 5 right. exists user, db1, ex, db2. done.
      * right. left. exists user, db1. split; [done|]. split.
        { unfold JS.falsy in Hlinked.
          by destruct (JS.truthy (providerId user)). }
        by destruct (done_k None (Some user)) as [[]|ex0].
    + destruct (User_create _ db1) as [[u|ex] db2] eqn:Hcreate; simpl.
      * do 2 right. left. exists db1, u, db2. repeat split; try done.
        by destruct (done_k None (Some u)) as [[]|ex0].
      * do 3 right. left. exists db1, ex, db2. done.
    + left. exists ex, db1. done.
Qed.

(** X5.  A handshake makes at most one lookup and at most one write (a create or
    a save, never both), and no write without a lookup before it. *)
Theorem at_most_one_write a r profile db :
  let log := log_of (verify_callback a r profile db) in
  count is_find log <= 1
  /\ count is_create log + count is_save log <= 1
  /\ count is_write log <= count is_find log
  /\ (count is_write log = 1 -> exists e later, log = CallFindOne e :: later).
Proof.
  intros log. subst log.
  destruct (JS.falsy (resolve_email profile)) eqn:Hfalsy.
  - rewrite verify_callback_no_email by done.
    repeat split; compute; lia.
  - unfold_run. rewrite Hfalsy.
    destruct (User_findOne _ db) as [[[user|]|ex] db1]; simpl.
    + destruct (JS.falsy (providerId user)).
      * destruct (User_save _ db1) as [[[]|ex] db2]; simpl;
          repeat split; try (compute; lia); eauto.
      * repeat split; try (compute; lia); eauto.
    + destruct (User_create _ db1) as [[u|ex] db2]; simpl;
        repeat split; try (compute; lia); eauto.
    + repeat split; try (compute; lia); eauto.
Qed.

(** X6.  Once the handler has reported, it makes no further call on the
    persistence service.  Under any continuation the calls of a handshake
    are: calls on the persistence service; then a report, which carries
    either an error and no user or a user and no error; then nothing, or
    one more report, which is made only when the continuation threw on the
    first and which carries what it threw. *)
Theorem reports_come_last
    (done_k : option exn -> option UserRecord -> outcome unit)
    a r profile db :
  exists before err reported later,
    log_of (verify_callback_with done_k a r profile db)
    = before ++ CallDone err reported :: later
    /\ count is_done before = 0
    /\ ((exists ex, err = Some ex /\ reported = None)
        \/ (exists u, err = None /\ reported = Some u))
    /\ (later = []
        \/ exists ex,
             done_k err reported = Thrown ex
             /\ later = [ CallDone (Some ex) None ]).
Proof.
  unfold_run.
  destruct (JS.falsy (resolve_email profile)).
  { exists [], (Some no_email), None.
    destruct (done_k (Some no_email) None) as [[]|ex0] eqn:Hk; simpl;
      eexists; repeat split; eauto. }
  set (e := default "" (resolve_email profile)).
  destruct (User_findOne e db) as [[[user|]|ex] db1]; simpl.
  - destruct (JS.falsy (providerId user)).
    + destruct (User_save _ db1) as [[[]|ex] db2]; simpl.
      * exists [ CallFindOne e; CallSave (backfill profile user) ],
          None, (Some (backfill profile user)).
        destruct (done_k None (Some (backfill profile user)))
          as [[]|ex0] eqn:Hk; simpl; eexists; repeat split; eauto.
      * exists [ CallFindOne e; CallSave (backfill profile user) ],
          (Some ex), None, []. repeat split; eauto.
    + exists [ CallFindOne e ], None, (Some user).
      destruct (done_k None (Some user)) as [[]|ex0] eqn:Hk; simpl;
        eexists; repeat split; eauto.
  - destruct (User_create _ db1) as [[u|ex] db2]; simpl.
    + exists [ CallFindOne e; CallCreate (new_user e profile) ],
        None, (Some u).
      destruct (done_k None (Some u)) as [[]|ex0] eqn:Hk; simpl;
        eexists; repeat split; eauto.
    + exists [ CallFindOne e; CallCreate (new_user e profile) ],
        (Some ex), None, []. repeat split; eauto.
  - exists [ CallFindOne e ], (Some ex), None, []. repeat split; eauto.
Qed.

End HandshakeTraces.

(** ** What a successful handshake reports and leaves behind *)

Section HandshakeResults.
Context {DB : Type} `{UserModel DB}.
Implicit Types (profile : Profile) (db : DB) (user : UserRecord).

(** X7.  When the create returns, the handshake reports the record that the
    persistence service returned (not the fields it was given), and the
    persistence state is the one the create left. *)
Theorem create_success_reports_returned_record a r profile db db1 db2 e u :
  resolve_email profile = Some e -> e <> "" ->
  User_findOne e db = (Returned None, db1) ->
  User_create (new_user e profile) db1 = (Returned u, db2) ->
  verify_callback a r profile db =
    (Returned tt, db2,
     [ CallFindOne e; CallCreate (new_user e profile);
       CallDone None (Some u) ]).
Proof.
  intros He Hne Hfind Hcreate.
  rewrite (verify_callback_resolved a r profile db e He Hne). unfold_run.
  by rewrite Hfind, Hcreate.
Qed.

(** X8.  When the save returns, the handshake reports the record as it was
    saved, with the provider fields filled in. *)
Theorem save_success_reports_saved_record a r profile db db1 db2 e user :
  resolve_email profile = Some e -> e <> "" ->
  User_findOne e db = (Returned (Some user), db1) ->
  JS.falsy (providerId user) = true ->
  User_save (backfill profile user) db1 = (Returned tt, db2) ->
  verify_callback a r profile db =
    (Returned tt, db2,
     [ CallFindOne e; CallSave (backfill profile user);
       CallDone None (Some (backfill profile user)) ]).
Proof.
  intros He Hne Hfind Hunlinked Hsave.
  rewrite (verify_callback_resolved a r profile db e He Hne). unfold_run.
  by rewrite Hfind, Hunlinked, Hsave.
Qed.

(** X9.  A handshake is idempotent over a lawful store.  For a profile with a
    non-empty external id, and a store whose lookup by this email finds
    records of this email: once a handshake has reported a user, the same
    handshake on the store it left makes the lookup only, writes nothing,
    leaves the store as it is and reports the same user. *)
Theorem handshake_idempotent a r profile db e u :
  lawful_store DB ->
  (forall found db1,
      User_findOne e db = (Returned (Some found), db1) -> email found = e) ->
  resolve_email profile = Some e -> e <> "" ->
  id profile <> "" ->
  done_calls (log_of (verify_callback a r profile db)) = [ (None, Some u) ] ->
  verify_callback a r profile (db_of (verify_callback a r profile db)) =
    (Returned tt, db_of (verify_callback a r profile db),
     [ CallFindOne e; CallDone None (Some u) ]).
Proof.
  intros [Hagain Hcreated Hsaved] Hkey He Hne Hid.
  assert (forall v, JS.falsy (providerId (backfill profile v)) = false)
    as Hback.
  { intros v. unfold backfill. simpl.
    destruct (_ && _); simpl; by rewrite falsy_Some. }
  rewrite !(verify_callback_resolved a r profile _ e He Hne). unfold_run.
  destruct (User_findOne e db) as [[[user|]|ex] db1] eqn:Hfind; simpl.
  - destruct (JS.falsy (providerId user)) eqn:Hlinked.
    + destruct (User_save _ db1) as [[[]|ex] db2] eqn:Hsave; simpl;
        [|discriminate].
      intros [= <-]. apply Hsaved in Hsave.
      assert (email (backfill profile user) = e) as Hmail.
      { rewrite <- (Hkey user db1 eq_refl). unfold backfill.
        by destruct (_ && _). }
      rewrite Hmail in Hsave. rewrite Hsave, Hback. reflexivity.
    + simpl. intros [= <-]. rewrite (Hagain _ _ _ _ Hfind), Hlinked.
      reflexivity.
  - destruct (User_create _ db1) as [[u'|ex] db2] eqn:Hcreate; simpl;
      [|discriminate].
    intros [= <-]. destruct (Hcreated _ _ _ _ Hcreate) as [-> Hfound].
    simpl in Hfound. rewrite Hfound. simpl.
    rewrite (falsy_Some (String_ (id profile)) Hid). reflexivity.
  - discriminate.
Qed.

End HandshakeResults.

(** X10.  Filling in the provider fields twice is the same as once, and it never
    takes an avatar away: the record has an avatar afterwards exactly when
    it had one or the profile brings one. *)
Theorem backfill_idempotent profile user :
  backfill profile (backfill profile user) = backfill profile user
  /\ JS.truthy (avatar (backfill profile user))
     = JS.truthy (avatar user) || JS.truthy (resolve_avatar profile).
Proof.
  unfold backfill. simpl. unfold JS.falsy.
  destruct (JS.truthy (avatar user)) eqn:Hold;
    destruct (JS.truthy (resolve_avatar profile)) eqn:Hnew; simpl;
    rewrite ?Hold, ?Hnew; simpl; rewrite ?Hold, ?Hnew; done.
Qed.

(** ** A continuation that throws *)

Section ThrowingContinuation.
Context {DB : Type} `{UserModel DB}.
Variable done_k : option exn -> option UserRecord -> outcome unit.
Implicit Types (profile : Profile) (db : DB) (user : UserRecord).

Ltac unfold_with :=
  unfold verify_callback_with, verify_body_with, call_done.

(** Under any continuation that always returns, the handler is
    [verify_callback]. *)
Lemma verify_callback_with_returning a r profile db :
  (forall err reported, done_k err reported = Returned tt) ->
  verify_callback_with done_k a r profile db = verify_callback a r profile db.
Proof.
  intros Hret. unfold_with. unfold_run.
  destruct (JS.falsy (resolve_email profile)); [by rewrite Hret|].
  destruct (User_findOne _ db) as [[[user|]|ex] db1]; simpl.
  - destruct (JS.falsy (providerId user)); [|by rewrite Hret].
    destruct (User_save _ db1) as [[[]|ex] db2]; simpl; by rewrite Hret.
  - destruct (User_create _ db1) as [[u|ex] db2]; simpl; by rewrite Hret.
  - by rewrite Hret.
Qed.

(** X11.  The success report is made inside the [try] block: when the
    continuation throws on it, the handler catches what it threw and calls
    the continuation a second time, with that exception as the error; the
    outcome of the handler is the outcome of this second call. *)
Theorem throwing_continuation_is_called_twice a r profile db u ex :
  done_calls (log_of (verify_callback a r profile db)) = [ (None, Some u) ] ->
  done_k None (Some u) = Thrown ex ->
  result_of (verify_callback_with done_k a r profile db)
  = done_k (Some ex) None
  /\ done_calls (log_of (verify_callback_with done_k a r profile db))
     = [ (None, Some u); (Some ex, None) ].
Proof.
  unfold_with. unfold_run.
  destruct (JS.falsy (resolve_email profile)); [discriminate|].
  destruct (User_findOne _ db) as [[[user|]|ex0] db1]; simpl.
  - destruct (JS.falsy (providerId user)).
    + destruct (User_save _ db1) as [[[]|ex0] db2]; simpl; [|discriminate].
      intros [= <-] ->. done.
    + simpl. intros [= <-] ->. done.
  - destruct (User_create _ db1) as [[u'|ex0] db2]; simpl; [|discriminate].
    intros [= <-] ->. done.
  - discriminate.
Qed.

(** X12.  The error report of a persistence failure is made in the [catch]
    block: when the continuation throws on it, it has been called once and
    its exception leaves the handler. *)
Theorem throwing_continuation_escapes_catch a r profile db e ex db1 ex' :
  resolve_email profile = Some e -> e <> "" ->
  User_findOne e db = (Thrown ex, db1) ->
  done_k (Some ex) None = Thrown ex' ->
  verify_callback_with done_k a r profile db =
    (Thrown ex', db1, [ CallFindOne e; CallDone (Some ex) None ]).
Proof.
  intros He Hne Hfind Hthrow. unfold_with. unfold_run.
  rewrite He, (falsy_Some e Hne). simpl. by rewrite Hfind, Hthrow.
Qed.

(** X20.  The continuation has no part in what a handshake does to the
    persistence service: whatever the continuation does when it is called,
    the calls on the service (in their order and with their arguments), the
    state the handshake leaves and the first report are those of the
    handshake under a continuation that returns. *)
Theorem continuation_does_not_change_persistence a r profile db :
  persistence_calls (log_of (verify_callback_with done_k a r profile db))
  = persistence_calls (log_of (verify_callback a r profile db))
  /\ db_of (verify_callback_with done_k a r profile db)
     = db_of (verify_callback a r profile db)
  /\ head (done_calls (log_of (verify_callback_with done_k a r profile db)))
     = head (done_calls (log_of (verify_callback a r profile db))).
Proof.
  unfold persistence_calls. unfold_run.
  destruct (JS.falsy (resolve_email profile)).
  { by destruct (done_k (Some no_email) None) as [[]|ex0]. }
  destruct (User_findOne _ db) as [[[user|]|ex] db1]; simpl.
  - destruct (JS.falsy (providerId user)).
    + destruct (User_save _ db1) as [[[]|ex] db2]; simpl; [|done].
      by destruct (done_k None (Some (backfill profile user))) as [[]|ex0].
    + by destruct (done_k None (Some user)) as [[]|ex0].
  - destruct (User_create _ db1) as [[u|ex] db2]; simpl; [|done].
    by destruct (done_k None (Some u)) as [[]|ex0].
  - done.
Qed.

End ThrowingContinuation.

(** ** The derived names *)

Lemma or_lit_nonempty a d : d <> "" -> JS.or_lit a d <> "".
Proof.
  intros Hd. unfold JS.or_lit. destruct a as [s|]; [|done].
  destruct (String.eqb s "") eqn:E; [done|]. by apply String.eqb_neq.
Qed.

Lemma before_space_free d : space_free (before_space d) = true.
Proof.
  induction d as [|c d IH]; [done|]. simpl.
  destruct (JS.is_space c) eqn:Hc; [done|]. simpl. by rewrite Hc.
Qed.

Lemma split_at_first_space d :
  d = (if has_space d then before_space d +:+ " " +:+ after_space d
       else before_space d)
  /\ (has_space d = false -> after_space d = "").
Proof.
  induction d as [|c d [IH1 IH2]]; [done|]. simpl.
  destruct (JS.is_space c) eqn:Hc; simpl.
  - apply Ascii.eqb_eq in Hc. subst c. done.
  - split; [|done]. destruct (has_space d); exact (f_equal (String c) IH1).
Qed.

(** X13.  The [name] and the [firstName] of a created record are never empty,
    whatever the profile holds, and the [firstName] has no space in it. *)
Theorem names_never_empty (p : Profile) :
  derive_name p <> ""
  /\ derive_firstName p <> ""
  /\ space_free (derive_firstName p) = true.
Proof.
  split; [by apply or_lit_nonempty|]. split; [by apply or_lit_nonempty|].
  rewrite derive_firstName_before_space.
  destruct (displayName p) as [d|]; [|done].
  destruct (String.eqb (before_space d) ""); [done|].
  apply before_space_free.
Qed.

(** X14.  Nothing of a display name is lost when it does not begin with a space:
    with a space in it, it is the first name, one space and the last name;
    without, it is the first name, and the last name is empty. *)
Theorem names_rebuild_displayName (p : Profile) d :
  displayName p = Some d ->
  before_space d <> "" ->
  d = (if has_space d
       then derive_firstName p +:+ " " +:+ derive_lastName p
       else derive_firstName p)
  /\ (has_space d = false -> derive_lastName p = "").
Proof.
  intros Hd Hne.
  rewrite derive_firstName_before_space, derive_lastName_after_space, Hd.
  apply String.eqb_neq in Hne. rewrite Hne. apply split_at_first_space.
Qed.

(** ** The strategy under the configuration of the template *)

Lemma truthy_or_lit_empty v : JS.truthy (Some (JS.or_lit v "")) = JS.truthy v.
Proof.
  destruct v as [s|]; simpl; [|done].
  destruct (String.eqb s "") eqn:E; simpl; by rewrite ?E.
Qed.

Section DocumentedConfig.
Context {DB : Type} `{UserModel DB}.

(** X16.  With the configuration that the template documents, the strategy is
    constructed exactly when the client id and the client secret are set in
    the environment and not empty; the callback address then never is empty,
    because it has a default, so that the strategy exists exactly when all
    three configured values are non-empty. *)
Theorem documented_config_strategy (env : string -> option string) :
  (is_Some (githubStrategy (documented_config env)) <->
     JS.truthy (env "GITHUB_OAUTH_CLIENT_ID") = true
     /\ JS.truthy (env "GITHUB_OAUTH_CLIENT_SECRET") = true)
  /\ (is_Some (githubStrategy (documented_config env)) <->
        all_three_credentials (documented_config env) = true)
  /\ (forall s, githubStrategy (documented_config env) = Some s ->
        JS.truthy (strategy_callbackURL s) = true
        /\ (JS.falsy (env "GITHUB_OAUTH_CALLBACK_URL") = true ->
              strategy_callbackURL s = Some default_callbackURL)).
Proof.
  assert (JS.truthy
            (Some (JS.or_lit (env "GITHUB_OAUTH_CALLBACK_URL")
                             default_callbackURL)) = true) as Hurl.
  { apply truthy_Some, or_lit_nonempty. discriminate. }
  unfold githubStrategy, all_three_credentials, documented_config.
  cbn [oauth_github clientID clientSecret callbackURL].
  rewrite Hurl, !truthy_or_lit_empty.
  destruct (JS.truthy (env "GITHUB_OAUTH_CLIENT_ID"));
    destruct (JS.truthy (env "GITHUB_OAUTH_CLIENT_SECRET")); simpl.
  1: { split; [|split].
       - split; eauto.
       - split; eauto.
       - intros s [= <-]. cbn [strategy_callbackURL]. split; [exact Hurl|].
         intros Hunset. f_equal. unfold JS.or_lit.
         destruct (env "GITHUB_OAUTH_CALLBACK_URL") as [url|]; [|done].
         by rewrite (falsy_true_not_Some _ url Hunset eq_refl). }
  all: split; [|split]; [| |discriminate];
    (split; [intros [? [=]] | intuition discriminate]).
Qed.

End DocumentedConfig.

(** ** The validity of a token *)

Section TokenWindow.
Import Jwt.
Variable ms : string -> option Z.
Implicit Types (payload : gmap string json) (secret : string).
Local Open Scope Z_scope.

(** X17.  A token is valid from its issue up to, and not including, the issue
    time plus the whole seconds of its duration: checked with the signing
    secret before that instant it gives the claims, and from that instant on
    it is expired. *)
Theorem token_validity_window issued checked payload secret expireTime m :
  ms expireTime = Some m ->
  secret <> "" ->
  payload !! "iat" = None -> payload !! "exp" = None ->
  payload !! "nbf" = None ->
  (checked < issued + m / 1000 ->
     round_trip ms issued checked payload secret expireTime =
       Returned (<["exp" := JNum (issued + m / 1000)]>
                   (<["iat" := JNum issued]> payload)))
  /\ (issued + m / 1000 <= checked ->
        round_trip ms issued checked payload secret expireTime =
          Thrown (TokenExpiredError "jwt expired" (issued + m / 1000))).
Proof.
  intros Hms Hsecret Hiat Hexp Hnbf. unfold round_trip.
  rewrite (createToken_plain ms issued payload secret expireTime m)
    by assumption.
  unfold verifyToken, jwt_verify, check_nbf, check_exp. simpl.
  apply String.eqb_neq in Hsecret. rewrite Hsecret, String.eqb_refl.
  simpl. rewrite lookup_insert_ne, lookup_insert_ne, Hnbf by done.
  rewrite lookup_insert_eq.
  split; intros Htime;
    destruct (issued + m / 1000 <=? checked) eqn:Hle; (done || lia).
Qed.

(** X18.  Verification returns only for the secret the token was signed with,
    which is not empty, at a time that is not before [nbf] and is before
    [exp], and what it returns is the claims of the token, unchanged. *)
Theorem verifyToken_sound now tok secret decoded :
  verifyToken now tok secret = Returned decoded ->
  signed_with tok = secret
  /\ secret <> ""
  /\ decoded = claims tok
  /\ (forall v, claims tok !! "exp" = Some v ->
        exists t, v = JNum t /\ now < t)
  /\ (forall v, claims tok !! "nbf" = Some v ->
        exists t, v = JNum t /\ t <= now).
Proof.
  unfold verifyToken, jwt_verify, check_nbf, check_exp.
  destruct (String.eqb secret "") eqn:Hempty; [discriminate|].
  destruct (String.eqb (signed_with tok) secret) eqn:Hsig; [|discriminate].
  simpl. apply String.eqb_eq in Hsig. apply String.eqb_neq in Hempty.
  destruct (claims tok !! "nbf") as [[| |n| | |]|] eqn:Hnbf; try discriminate.
  - destruct (now <? n) eqn:Hn; [discriminate|].
    destruct (claims tok !! "exp") as [[| |t| | |]|] eqn:Hexp;
      try discriminate.
    + destruct (t <=? now) eqn:Ht; [discriminate|]. intros [= <-].
      repeat split; try done.
      * intros v [= <-]. exists t. split; [done|lia].
      * intros v [= <-]. exists n. split; [done|lia].
    + intros [= <-]. repeat split; try done.
      intros v [= <-]. exists n. split; [done|lia].
  - destruct (claims tok !! "exp") as [[| |t| | |]|] eqn:Hexp;
      try discriminate.
    + destruct (t <=? now) eqn:Ht; [discriminate|]. intros [= <-].
      repeat split; try done.
      intros v [= <-]. exists t. split; [done|lia].
    + intros [= <-]. repeat split; done.
Qed.

(** X19.  [createToken] gives no token, and throws, when the secret is empty,
    when the payload brings an [exp] of its own, or when the duration is not
    one of the grammar. *)
Theorem createToken_refuses now payload secret expireTime :
  secret = "" \/ is_Some (payload !! "exp") \/ ms expireTime = None ->
  exists error,
    createToken ms now payload secret expireTime = Thrown error.
Proof.
  intros Hbad. unfold createToken, jwt_sign, timespan.
  destruct (String.eqb secret "") eqn:Hempty; [eauto|].
  destruct (number_or_absent (payload !! "iat")); simpl; [|eauto].
  destruct (number_or_absent (payload !! "exp")); simpl; [|eauto].
  destruct (number_or_absent (payload !! "nbf")); simpl; [|eauto].
  case_bool_decide as Hexp; [eauto|].
  destruct Hbad as [-> | [Hhas | Hms]]; [discriminate|done|].
  rewrite Hms. eauto.
Qed.

End TokenWindow.

(** ** The in-memory collection is a lawful store *)

Lemma MemDB_lawful : lawful_store MemDB.
Proof.
  split.
  - intros e db r db1. simpl. unfold mem_findOne.
    destruct (online db) eqn:Hon; [|discriminate].
    intros [= <- <-]. by rewrite ?Hon.
  - intros fields db u db1. simpl. unfold mem_create, mem_findOne.
    destruct (online db) eqn:Hon; [|discriminate].
    destruct (documents db !! email fields); [discriminate|].
    intros [= <- <-]. simpl. by rewrite ?Hon, lookup_insert_eq.
  - intros doc db db1. simpl. unfold mem_save, mem_findOne.
    destruct (online db) eqn:Hon; [|discriminate].
    intros [= <-]. simpl. by rewrite ?Hon, lookup_insert_eq.
Qed.

(** ** The further properties at sample inputs *)

Lemma lookup_uses_first_email_sample :
  exists later,
    log_of (verify_callback "access" "refresh" ada empty_db)
    = CallFindOne "ada@example.org" :: later.
Proof.
  apply (lookup_uses_first_email (DB := MemDB) "access" "refresh" ada
           empty_db "ada@example.org" []);
    [reflexivity | discriminate].
Defined.

Lemma lookup_falls_back_to_flat_email_sample :
  exists later,
    log_of (verify_callback "access" "refresh" ada99 empty_db)
    = CallFindOne "ada@example.org" :: later.
Proof.
  apply (lookup_falls_back_to_flat_email (DB := MemDB) "access" "refresh"
           ada99 empty_db "ada@example.org");
    [reflexivity | reflexivity | discriminate].
Defined.

Lemma later_emails_are_ignored_sample :
  verify_callback "access" "refresh" second_email_only empty_db =
    (Returned tt, empty_db, [ CallDone (Some no_email) None ]).
Proof.
  apply (later_emails_are_ignored (DB := MemDB) "access" "refresh"
           second_email_only empty_db None
           [ {| value := Some "grace@example.org" |} ]);
    reflexivity.
Defined.

Lemma create_success_sample :
  verify_callback "access" "refresh" ada empty_db =
    (Returned tt, db_with (new_user "ada@example.org" ada),
     [ CallFindOne "ada@example.org";
       CallCreate (new_user "ada@example.org" ada);
       CallDone None (Some (new_user "ada@example.org" ada)) ]).
Proof.
  apply (create_success_reports_returned_record (DB := MemDB) "access"
           "refresh" ada empty_db empty_db
           (db_with (new_user "ada@example.org" ada)) "ada@example.org"
           (new_user "ada@example.org" ada));
    [reflexivity | discriminate | reflexivity | reflexivity].
Defined.

Lemma save_success_sample :
  verify_callback "access" "refresh" ada (db_with local_ada) =
    (Returned tt, db_with linked_ada,
     [ CallFindOne "ada@example.org"; CallSave (backfill ada local_ada);
       CallDone None (Some (backfill ada local_ada)) ]).
Proof.
  apply (save_success_reports_saved_record (DB := MemDB) "access" "refresh"
           ada (db_with local_ada) (db_with local_ada) (db_with linked_ada)
           "ada@example.org" local_ada);
    [reflexivity | discriminate | reflexivity | reflexivity | ].
  vm_compute. reflexivity.
Defined.

Lemma handshake_idempotent_sample :
  verify_callback "access" "refresh" ada
    (db_of (verify_callback "access" "refresh" ada empty_db))
  = (Returned tt, db_of (verify_callback "access" "refresh" ada empty_db),
     [ CallFindOne "ada@example.org";
       CallDone None (Some (new_user "ada@example.org" ada)) ]).
Proof.
  apply (handshake_idempotent (DB := MemDB) "access" "refresh" ada empty_db
           "ada@example.org" (new_user "ada@example.org" ada) MemDB_lawful);
    [ intros found db1; discriminate | reflexivity | discriminate
    | discriminate | reflexivity ].
Defined.

Lemma throwing_continuation_sample :
  result_of (verify_callback_with failing_login "access" "refresh" ada
               (db_with linked_ada))
  = failing_login (Some session_failure) None
  /\ done_calls
       (log_of (verify_callback_with failing_login "access" "refresh" ada
                  (db_with linked_ada)))
     = [ (None, Some linked_ada); (Some session_failure, None) ].
Proof.
  apply (throwing_continuation_is_called_twice (DB := MemDB) failing_login
           "access" "refresh" ada (db_with linked_ada) linked_ada
           session_failure);
    reflexivity.
Defined.

Lemma throwing_continuation_escapes_sample :
  verify_callback_with broken_middleware "access" "refresh" ada offline_db =
    (Thrown session_failure, offline_db,
     [ CallFindOne "ada@example.org"; CallDone (Some connection_lost) None ]).
Proof.
  apply (throwing_continuation_escapes_catch (DB := MemDB) broken_middleware
           "access" "refresh" ada offline_db "ada@example.org"
           connection_lost offline_db session_failure);
    [reflexivity | discriminate | reflexivity | reflexivity].
Defined.

Lemma names_rebuild_displayName_sample :
  "Ada Lovelace"
  = (if has_space "Ada Lovelace"
     then derive_firstName ada +:+ " " +:+ derive_lastName ada
     else derive_firstName ada)
  /\ (has_space "Ada Lovelace" = false -> derive_lastName ada = "").
Proof.
  apply (names_rebuild_displayName ada "Ada Lovelace");
    [reflexivity | discriminate].
Defined.

Lemma name_rules_on_tokens_sample :
  derive_firstName ada = "Ada"
  /\ derive_lastName ada = JS.join_space [ "Lovelace" ].
Proof.
  apply (name_rules_on_tokens ada "Ada" [ "Lovelace" ]);
    [reflexivity | discriminate | reflexivity].
Defined.

Lemma token_validity_window_sample :
  ((5000 < 1000 + 604800000 / 1000)%Z ->
     Jwt.round_trip Jwt.ms_sample 1000 5000 Jwt.sample_payload "s3cr3t" "7d"
     = Returned (<["exp" := Jwt.JNum (1000 + 604800000 / 1000)]>
                   (<["iat" := Jwt.JNum 1000]> Jwt.sample_payload)))
  /\ ((1000 + 604800000 / 1000 <= 5000)%Z ->
        Jwt.round_trip Jwt.ms_sample 1000 5000 Jwt.sample_payload "s3cr3t"
          "7d"
        = Thrown (TokenExpiredError "jwt expired" (1000 + 604800000 / 1000))).
Proof.
  apply (token_validity_window Jwt.ms_sample 1000 5000 Jwt.sample_payload
           "s3cr3t" "7d" 604800000);
    [reflexivity | discriminate | reflexivity | reflexivity | reflexivity].
Defined.

Lemma verifyToken_sound_sample :
  let tok :=
    {| Jwt.claims := <["exp" := Jwt.JNum 4600]> Jwt.sample_payload;
       Jwt.signed_with := "s3cr3t" |} in
  Jwt.signed_with tok = "s3cr3t"
  /\ "s3cr3t" <> ""
  /\ Jwt.claims tok = Jwt.claims tok
  /\ (forall v, Jwt.claims tok !! "exp" = Some v ->
        exists t, v = Jwt.JNum t /\ (1200 < t)%Z)
  /\ (forall v, Jwt.claims tok !! "nbf" = Some v ->
        exists t, v = Jwt.JNum t /\ (t <= 1200)%Z).
Proof.
  apply (verifyToken_sound 1200
           {| Jwt.claims := <["exp" := Jwt.JNum 4600]> Jwt.sample_payload;
              Jwt.signed_with := "s3cr3t" |}
           "s3cr3t"
           (<["exp" := Jwt.JNum 4600]> Jwt.sample_payload)).
  reflexivity.
Defined.

Lemma createToken_refuses_sample :
  exists error,
    Jwt.createToken Jwt.ms_sample 1000 Jwt.sample_payload "" "1h"
    = Thrown error.
Proof.
  apply (createToken_refuses Jwt.ms_sample 1000 Jwt.sample_payload "" "1h").
  left. reflexivity.
Defined.
